(** * DiveComputer: a shallow embedding of [diving_data.py]

    The class [DiveComputer] keeps the state of one dive (oxygen fraction,
    depth, start time, dive time, ascent rate) and derives four metrics from
    it: PO2, NDL, CNS percentage and safe-stop time.

    Numbers.  The main model takes Python's [int] and [float] values as exact
    rationals [Q]: comparisons and the four arithmetic operations are the
    exact ones.  True division [/] raises [ZeroDivisionError] on a zero
    divisor, as in Python.  What exact rationals leave out is the rounding of
    binary64 results and the [OverflowError] that Python raises when an
    [int] too large for a float enters a float operation.  Module [Binary64]
    models these for [calculate_PO2] and [calculate_safe_stop_time], on
    Python's own numbers, and the properties that depend on them are stated
    for values within the binary64 range ([in_float_range]).

    Effects.  Methods that assign to [self] are functions from state to
    state; [time.time()] is an explicit clock reading passed by the caller;
    methods that may raise return a [result]. *)

From Stdlib Require Import QArith Lqa ZArith Lia List Bool.
From Stdlib Require Floats.
Import ListNotations.
Open Scope Q_scope.

(** ** The fragment of the Python runtime that the class relies on *)

Module Py.

Inductive exn : Type :=
| ZeroDivisionError
| KeyError
| IndexError.

Inductive result (A : Type) : Type :=
| Ok (a : A)
| Raise (e : exn).
Arguments Ok {A} a.
Arguments Raise {A} e.

Definition bind {A B : Type} (m : result A) (k : A -> result B) : result B :=
  match m with
  | Ok a => k a
  | Raise e => Raise e
  end.

(** [returns r v]: the call finished normally with a value equal to [v]. *)
Definition returns (r : result Q) (v : Q) : Prop :=
  match r with
  | Ok x => x == v
  | Raise _ => False
  end.

(** [raises r e]: the call ended with the exception [e]. *)
Definition raises {A : Type} (r : result A) (e : exn) : Prop :=
  r = Raise e.

(** Comparisons [<=], [<], [>=], [>]. *)
Definition le (a b : Q) : bool := Qle_bool a b.
Definition lt (a b : Q) : bool := negb (Qle_bool b a).
Definition ge (a b : Q) : bool := Qle_bool b a.
Definition gt (a b : Q) : bool := negb (Qle_bool a b).

(** True division [a / b] of values within the binary64 range; beyond it
    see [Binary64.truediv]. *)
Definition truediv (a b : Q) : result Q :=
  if Qeq_bool b 0 then Raise ZeroDivisionError else Ok (a / b).

(** A [dict] with numeric keys, in insertion order. *)
Definition dict : Type := list (Q * Q).

Definition keys (d : dict) : list Q := map fst d.

(** [d[k]] *)
Fixpoint dict_getitem (d : dict) (k : Q) : result Q :=
  match d with
  | [] => Raise KeyError
  | (k', v) :: d' => if Qeq_bool k' k then Ok v else dict_getitem d' k
  end.

(** [sorted(l)]: ascending and stable. *)
Fixpoint insert_sorted (x : Q) (l : list Q) : list Q :=
  match l with
  | [] => [x]
  | y :: l' => if lt x y then x :: y :: l' else y :: insert_sorted x l'
  end.

Definition sorted (l : list Q) : list Q :=
  fold_left (fun acc x => insert_sorted x acc) l [].

(** [len(l)] *)
Definition len (l : list Q) : Z := Z.of_nat (length l).

(** [l[i]], where a negative [i] counts from the end. *)
Definition list_getitem (l : list Q) (i : Z) : result Q :=
  let j := if (i <? 0)%Z then (i + len l)%Z else i in
  if (j <? 0)%Z then Raise IndexError
  else match nth_error l (Z.to_nat j) with
       | Some x => Ok x
       | None => Raise IndexError
       end.

(** [range(n)] *)
Definition range (n : Z) : list Z := map Z.of_nat (seq 0 (Z.to_nat n)).

End Py.

Import Py.

Notation "x <- m ;; k" := (bind m (fun x => k))
  (at level 61, m at next level, right associativity).

(** ** The class *)

Record DiveComputer : Type := mkDiveComputer {
  fo2 : Q;                     (* oxygen fraction *)
  depth : Q;                   (* current depth, meters *)
  start_time : option Q;       (* [None] or the clock reading at start *)
  dive_time : Q;               (* minutes *)
  ascent_rate : Q              (* meters per minute *)
}.

(** [__init__(self, fo2=0.21)] *)
Definition init (fo2 : Q) : DiveComputer :=
  {| fo2 := fo2; depth := 0; start_time := None; dive_time := 0;
     ascent_rate := 0 |}.

Definition init_default : DiveComputer := init 0.21.

Definition update_ascent_rate (self : DiveComputer) (new_rate : Q)
  : DiveComputer :=
  {| fo2 := fo2 self; depth := depth self; start_time := start_time self;
     dive_time := dive_time self; ascent_rate := new_rate |}.

Definition update_depth (self : DiveComputer) (new_depth : Q)
  : DiveComputer :=
  {| fo2 := fo2 self; depth := new_depth; start_time := start_time self;
     dive_time := dive_time self; ascent_rate := ascent_rate self |}.

(** [now] is the value of [time.time()] at the call. *)
Definition start_dive (self : DiveComputer) (now : Q) : DiveComputer :=
  {| fo2 := fo2 self; depth := depth self; start_time := Some now;
     dive_time := dive_time self; ascent_rate := ascent_rate self |}.

Definition stop_dive (self : DiveComputer) : DiveComputer :=
  {| fo2 := fo2 self; depth := depth self; start_time := None;
     dive_time := dive_time self; ascent_rate := ascent_rate self |}.

Definition calculate_dive_time (self : DiveComputer) (now : Q)
  : DiveComputer :=
  match start_time self with
  | Some t0 =>
      {| fo2 := fo2 self; depth := depth self; start_time := start_time self;
         dive_time := (now - t0) / 60; ascent_rate := ascent_rate self |}
  | None => self
  end.

(** The class keeps no separate flag: a dive is active exactly while
    [start_time] is set, which is what [calculate_dive_time] tests. *)
Definition dive_active (self : DiveComputer) : bool :=
  match start_time self with
  | Some _ => true
  | None => false
  end.

Definition calculate_PO2 (self : DiveComputer) : Q :=
  let p_ambient := 1 + depth self / 10 in
  let po2 := fo2 self * p_ambient in
  po2.

Definition calculate_NDL (self : DiveComputer) : Z :=
  if le (depth self) 12 then 60%Z
  else if le (depth self) 18 then 50%Z
  else if le (depth self) 24 then 40%Z
  else if le (depth self) 30 then 25%Z
  else 20%Z.

Definition cns_limits : dict :=
  [ (1.0, 570); (1.1, 480); (1.2, 420); (1.3, 360);
    (1.4, 300); (1.5, 240); (1.6, 150); (1.7, 120);
    (1.8, 90); (1.9, 60); (2.0, 45); (2.1, 30);
    (2.2, 25); (2.3, 20); (2.4, 15); (2.5, 10);
    (2.6, 8); (2.7, 6); (2.8, 5); (2.9, 4); (3.0, 3) ].

Definition sorted_po2_keys : list Q := sorted (keys cns_limits).

(** The right-hand side of the assignment in the loop body (lines 92-94).
    Subscripting is pure, so each of [sorted_po2_keys[i]] and
    [sorted_po2_keys[i + 1]] is read once. *)
Definition interpolate (po2 : Q) (i : Z) : result Q :=
  hi <- list_getitem sorted_po2_keys (i + 1) ;;
  t_hi <- dict_getitem cns_limits hi ;;
  lo <- list_getitem sorted_po2_keys i ;;
  t_lo <- dict_getitem cns_limits lo ;;
  slope <- truediv (t_hi - t_lo) (hi - lo) ;;
  Ok (slope * (po2 - lo) + t_lo).

(** The [for] loop over the indices [idx], leaving at the first bracket that
    holds [po2] ([break]); [None] when the loop runs to its end. *)
Fixpoint find_limit (po2 : Q) (idx : list Z) : result (option Q) :=
  match idx with
  | [] => Ok None
  | i :: rest =>
      lo <- list_getitem sorted_po2_keys i ;;
      if le lo po2 then
        hi <- list_getitem sorted_po2_keys (i + 1) ;;
        if lt po2 hi then
          limit_time <- interpolate po2 i ;;
          Ok (Some limit_time)
        else find_limit po2 rest
      else find_limit po2 rest
  end.

(** The value of the local [limit_time] when line 99 is reached. *)
Definition cns_limit_time (po2 : Q) : result Q :=
  found <- find_limit po2 (range (len sorted_po2_keys - 1)) ;;
  match found with
  | Some limit_time => Ok limit_time
  | None =>
      last <- list_getitem sorted_po2_keys (-1) ;;
      if ge po2 last then dict_getitem cns_limits last
      else
        first <- list_getitem sorted_po2_keys 0 ;;
        dict_getitem cns_limits first
  end.

Definition calculate_CNS (self : DiveComputer) : result Q :=
  let po2 := calculate_PO2 self in
  limit_time <- cns_limit_time po2 ;;
  ratio <- truediv (dive_time self) limit_time ;;
  let cns_percentage := ratio * 100 in
  Ok cns_percentage.

Definition calculate_safe_stop_time (self : DiveComputer) : result Q :=
  let safety_stop_depth := 3 in
  if gt (depth self) safety_stop_depth then
    truediv (depth self - safety_stop_depth) (ascent_rate self)
  else Ok 0.

(** ** Python's own numbers: [int] and binary64 [float] *)

Module Binary64.

Import Floats.

(** The two arithmetic exceptions of the methods modelled here. *)
Inductive exn : Type :=
| ZeroDivisionError
| OverflowError.

Inductive result (A : Type) : Type :=
| Ok (a : A)
| Raise (e : exn).
Arguments Ok {A} a.
Arguments Raise {A} e.

Definition bind {A B : Type} (m : result A) (k : A -> result B) : result B :=
  match m with
  | Ok a => k a
  | Raise e => Raise e
  end.

(** A Python number: an [int] of any size or a binary64 [float]. *)
Inductive num : Type :=
| Int (z : Z)
| Float (f : float).

(** An [int] as an unrounded binary float. *)
Definition int_as_spec (z : Z) : spec_float :=
  match z with
  | Z0 => S754_zero false
  | Zpos p => S754_finite false p 0
  | Zneg p => S754_finite true p 0
  end.

(** The conversion of an operand to [float]: an [int] is rounded to the
    nearest float, and [OverflowError] is raised when there is none. *)
Definition to_float (x : num) : result float :=
  match x with
  | Float f => Ok f
  | Int z =>
      let f := SF2Prim (binary_normalize prec emax z 0 false) in
      if is_infinity f then Raise OverflowError else Ok f
  end.

(** A binary operation with at least one [float] operand. *)
Definition float_op (op : float -> float -> float) (a b : num) : result num :=
  bind (to_float a) (fun x => bind (to_float b) (fun y => Ok (Float (op x y)))).

(** [a + b], [a - b], [a * b]: exact on two [int]s, binary64 otherwise. *)
Definition add (a b : num) : result num :=
  match a, b with
  | Int x, Int y => Ok (Int (x + y))
  | _, _ => float_op PrimFloat.add a b
  end.

Definition sub (a b : num) : result num :=
  match a, b with
  | Int x, Int y => Ok (Int (x - y))
  | _, _ => float_op PrimFloat.sub a b
  end.

Definition mul (a b : num) : result num :=
  match a, b with
  | Int x, Int y => Ok (Int (x * y))
  | _, _ => float_op PrimFloat.mul a b
  end.

(** [a / b].  Two [int]s give the correctly rounded quotient, or
    [OverflowError] when it is too large for a float; otherwise both
    operands are converted first and the divisor is tested afterwards. *)
Definition truediv (a b : num) : result num :=
  match a, b with
  | Int x, Int y =>
      if (y =? 0)%Z then Raise ZeroDivisionError
      else
        let q := SF2Prim (SFdiv prec emax (int_as_spec x) (int_as_spec y)) in
        if is_infinity q then Raise OverflowError else Ok (Float q)
  | _, _ =>
      bind (to_float a) (fun x =>
      bind (to_float b) (fun y =>
      if PrimFloat.eqb y 0 then Raise ZeroDivisionError
      else Ok (Float (x / y)%float)))
  end.

(** The exact comparison of a [float] with an [int]; [None] for a NaN. *)
Definition float_cmp_int (f : float) (z : Z) : option comparison :=
  match Prim2SF f with
  | S754_nan => None
  | S754_infinity s => Some (if s then Lt else Gt)
  | S754_zero _ => Some (0 ?= z)%Z
  | S754_finite s m e =>
      let v := if s then Zneg m else Zpos m in
      Some (match e with
            | Zneg k => (v ?= z * 2 ^ Zpos k)%Z
            | _ => (v * 2 ^ e ?= z)%Z
            end)
  end.

(** [a > b] *)
Definition gt (a b : num) : bool :=
  match a, b with
  | Int x, Int y => (y <? x)%Z
  | Float f, Float g => PrimFloat.ltb g f
  | Float f, Int y =>
      match float_cmp_int f y with Some Gt => true | _ => false end
  | Int x, Float g =>
      match float_cmp_int g x with Some Lt => true | _ => false end
  end.

Record DiveComputer : Type := mkDiveComputer {
  fo2 : num;
  depth : num;
  start_time : option num;
  dive_time : num;
  ascent_rate : num
}.

Definition init (fo2 : num) : DiveComputer :=
  {| fo2 := fo2; depth := Int 0; start_time := None; dive_time := Int 0;
     ascent_rate := Int 0 |}.

Definition update_ascent_rate (self : DiveComputer) (new_rate : num)
  : DiveComputer :=
  {| fo2 := fo2 self; depth := depth self; start_time := start_time self;
     dive_time := dive_time self; ascent_rate := new_rate |}.

Definition update_depth (self : DiveComputer) (new_depth : num)
  : DiveComputer :=
  {| fo2 := fo2 self; depth := new_depth; start_time := start_time self;
     dive_time := dive_time self; ascent_rate := ascent_rate self |}.

Definition calculate_PO2 (self : DiveComputer) : result num :=
  bind (truediv (depth self) (Int 10)) (fun q =>
  bind (add (Int 1) q) (fun p_ambient =>
  mul (fo2 self) p_ambient)).

Definition calculate_safe_stop_time (self : DiveComputer) : result num :=
  let safety_stop_depth := Int 3 in
  if gt (depth self) safety_stop_depth then
    bind (sub (depth self) safety_stop_depth) (fun d =>
    truediv d (ascent_rate self))
  else Ok (Int 0).

Definition ten_pow_400 : Z := 10 ^ 400.

Definition abyss : DiveComputer :=
  update_depth (init (Float 1)) (Int ten_pow_400).
Definition abyss_sinking : DiveComputer :=
  update_ascent_rate abyss (Int (-9)).

End Binary64.

(** ** The binary64 range *)

(** The largest finite float.  Every finite float lies between [- float_max]
    and [float_max], and an [int] in that range converts to a float without
    [OverflowError]. *)
Definition float_max : Q := inject_Z (2 ^ 1024 - 2 ^ 971).

Definition in_float_range (x : Q) : Prop :=
  - float_max <= x /\ x <= float_max.

(** Up to 2 ** 53 in absolute value every [int] is a float, so that an [int]
    and a [float] of the same value give the same results. *)
Definition exact_int_max : Q := inject_Z (2 ^ 53).

Definition in_exact_range (x : Q) : Prop :=
  - exact_int_max <= x /\ x <= exact_int_max.

(** ** Reading the limit-time table *)

(** [key_at n] and [limit_at n] are the PO2 breakpoint and the limit of the
    [n]-th entry of [cns_limits]. *)
Definition key_at (n : nat) : Q := nth n (keys cns_limits) 0.
Definition limit_at (n : nat) : Q := nth n (map snd cns_limits) 0.

(** The line through the entries [n] and [S n], at [po2]. *)
Definition interpolation (n : nat) (po2 : Q) : Q :=
  (limit_at (S n) - limit_at n) / (key_at (S n) - key_at n)
  * (po2 - key_at n) + limit_at n.

(** ** Sample sessions *)

(** A session that has gone down to 12 m and never set an ascent rate. *)
Definition at_depth_12 : DiveComputer := update_depth init_default 12.


(** Nitrox 50 at 20 m after one minute: PO2 is 0.5 * (1 + 20 / 10). *)
Definition nitrox50_at_20 : DiveComputer :=
  {| fo2 := 0.5; depth := 20; start_time := None; dive_time := 1;
     ascent_rate := 0 |}.

(** Pure oxygen at 20 m: PO2 is 1 * (1 + 20 / 10) = 3. *)
Definition oxygen_at_20 : DiveComputer :=
  {| fo2 := 1; depth := 20; start_time := None; dive_time := 1;
     ascent_rate := 0 |}.

Definition ascending_from_12 : DiveComputer :=
  update_ascent_rate at_depth_12 9.

(** A dive started at clock reading 100 and read at 220; and the same
    session once stopped. *)
Definition started_at_100 : DiveComputer := start_dive init_default 100.
Definition stopped_at_220 : DiveComputer :=
  stop_dive (calculate_dive_time started_at_100 220).

(** Two sessions, at 10 m and at 20 m. *)
Definition at_depth_10 : DiveComputer := update_depth init_default 10.
Definition at_depth_20 : DiveComputer := update_depth init_default 20.

(** ** Sequences of method calls *)

(** The state-changing methods of the class, with their arguments; [now] is
    the clock reading that the call obtains from [time.time()]. *)
Inductive call : Type :=
| UpdateAscentRate (new_rate : Q)
| UpdateDepth (new_depth : Q)
| StartDive (now : Q)
| StopDive
| CalculateDiveTime (now : Q).

Definition perform (self : DiveComputer) (c : call) : DiveComputer :=
  match c with
  | UpdateAscentRate new_rate => update_ascent_rate self new_rate
  | UpdateDepth new_depth => update_depth self new_depth
  | StartDive now => start_dive self now
  | StopDive => stop_dive self
  | CalculateDiveTime now => calculate_dive_time self now
  end.

Definition perform_all (self : DiveComputer) (cs : list call)
  : DiveComputer :=
  fold_left perform cs self.

(** The calls that read the clock or end the dive, and the two setters. *)
Definition is_setter (c : call) : bool :=
  match c with
  | UpdateAscentRate _ | UpdateDepth _ => true
  | StartDive _ | StopDive | CalculateDiveTime _ => false
  end.

(** ** The driver at the end of the module (lines 114-144) *)

(** The six values that one turn of the loop prints, before formatting. *)
Record Row : Type := mkRow {
  row_depth : Q;
  row_dive_time : Q;
  row_po2 : Q;
  row_ndl : Z;
  row_cns : Q;
  row_safe_stop : Q
}.

(** One turn of the loop body, for the loop variable [i]; [now] is the clock
    reading of [calculate_dive_time].  [time.sleep(1)] only lets the clock
    advance.  The last line is [dive_computer.depth += 1]. *)
Definition record_step (dive_computer : DiveComputer) (i : Z) (now : Q)
  : result (DiveComputer * Row) :=
  let dive_computer := update_depth dive_computer (inject_Z (i + 1)) in
  let dive_computer := calculate_dive_time dive_computer now in
  let dive_computer := update_ascent_rate dive_computer 9 in
  let po2 := calculate_PO2 dive_computer in
  let ndl := calculate_NDL dive_computer in
  cns_percentage <- calculate_CNS dive_computer ;;
  safe_stop_time <- calculate_safe_stop_time dive_computer ;;
  let row :=
    {| row_depth := depth dive_computer;
       row_dive_time := dive_time dive_computer;
       row_po2 := po2; row_ndl := ndl; row_cns := cns_percentage;
       row_safe_stop := safe_stop_time |} in
  let dive_computer :=
    {| fo2 := fo2 dive_computer; depth := depth dive_computer + 1;
       start_time := start_time dive_computer;
       dive_time := dive_time dive_computer;
       ascent_rate := ascent_rate dive_computer |} in
  Ok (dive_computer, row).

(** The [for] loop over the indices [idx]; [clock k] is the value of the
    [k]-th call of [time.time()].  An exception ends the run. *)
Fixpoint record_loop (clock : nat -> Q) (k : nat)
  (dive_computer : DiveComputer) (idx : list Z)
  : result (DiveComputer * list Row) :=
  match idx with
  | [] => Ok (dive_computer, [])
  | i :: rest =>
      step <- record_step dive_computer i (clock k) ;;
      later <- record_loop clock (S k) (fst step) rest ;;
      Ok (fst later, snd step :: snd later)
  end.

(** The module body for a given [record_count]: the final state of
    [dive_computer] and the rows printed. *)
Definition run_records (record_count : Z) (clock : nat -> Q)
  : result (DiveComputer * list Row) :=
  let dive_computer := init 0.32 in
  let dive_computer := start_dive dive_computer (clock 0%nat) in
  record_loop clock 1 dive_computer (range record_count).

Definition record_count : Z := 10.

(** A clock that starts at 1000 and advances by one second per reading. *)
Definition ticking_clock (k : nat) : Q := 1000 + inject_Z (Z.of_nat k).

(** The state of [dive_computer] at the moment when the turn for the loop
    variable [i] computes its metrics, for the oxygen fraction [f], the start
    reading [t0] and the reading [now] of that turn. *)
Definition turn_state (f t0 : Q) (i : Z) (now : Q) : DiveComputer :=
  {| fo2 := f; depth := inject_Z (i + 1); start_time := Some t0;
     dive_time := (now - t0) / 60; ascent_rate := 9 |}.

(** [row] holds the depth, the dive time and the four metrics of [st]. *)
Definition row_of_state (st : DiveComputer) (row : Row) : Prop :=
  row_depth row = depth st
  /\ row_dive_time row = dive_time st
  /\ row_po2 row = calculate_PO2 st
  /\ row_ndl row = calculate_NDL st
  /\ calculate_CNS st = Ok (row_cns row)
  /\ calculate_safe_stop_time st = Ok (row_safe_stop row).


(** A closed rational within the binary64 range. *)
Ltac float_range :=
  unfold in_float_range, in_exact_range; split; vm_compute; discriminate.

(** ** Comparisons as propositions *)

Lemma le_true a b : le a b = true <-> a <= b.
Proof. unfold le. apply Qle_bool_iff. Qed.

Lemma le_false a b : le a b = false <-> b < a.
Proof.
  unfold le. rewrite <- not_true_iff_false, Qle_bool_iff.
  split; [apply Qnot_le_lt | apply Qlt_not_le].
Qed.

Lemma lt_true a b : lt a b = true <-> a < b.
Proof. unfold lt. rewrite negb_true_iff. apply le_false. Qed.

Lemma lt_false a b : lt a b = false <-> b <= a.
Proof. unfold lt. rewrite negb_false_iff. apply le_true. Qed.

Lemma ge_true a b : ge a b = true <-> b <= a.
Proof. apply le_true. Qed.

Lemma ge_false a b : ge a b = false <-> a < b.
Proof. apply le_false. Qed.

Lemma gt_true a b : gt a b = true <-> b < a.
Proof. unfold gt. rewrite negb_true_iff. apply le_false. Qed.

Lemma gt_false a b : gt a b = false <-> a <= b.
Proof. unfold gt. rewrite negb_false_iff. apply le_true. Qed.

Lemma truediv_nonzero a b : ~ b == 0 -> truediv a b = Ok (a / b).
Proof.
  intros Hb. unfold truediv.
  destruct (Qeq_bool b 0) eqn:E; [|reflexivity].
  apply Qeq_bool_iff in E. contradiction.
Qed.


(** ** Sample runs *)

Example sorted_keys_run :
  sorted_po2_keys =
  [1.0; 1.1; 1.2; 1.3; 1.4; 1.5; 1.6; 1.7; 1.8; 1.9; 2.0;
   2.1; 2.2; 2.3; 2.4; 2.5; 2.6; 2.7; 2.8; 2.9; 3.0].
Proof. reflexivity. Qed.

Example sorted_sorts : sorted [3; 1; 2; 1.5] = [1; 1.5; 2; 3].
Proof. reflexivity. Qed.

Example limit_time_midpoint : returns (cns_limit_time 1.55) 195.
Proof. vm_compute. reflexivity. Qed.

Example safe_stop_default_rate :
  calculate_safe_stop_time (update_depth init_default 20)
  = Raise ZeroDivisionError.
Proof. reflexivity. Qed.

(** On Python's own numbers: 12 m at 9 m/min gives the float 1.0; the
    largest finite float is the last [int] that converts, up to rounding;
    and a negative ascent rate does not save the division at 10 ** 400 m. *)
Example binary64_safe_stop_12_9 :
  Binary64.calculate_safe_stop_time
    (Binary64.update_ascent_rate
       (Binary64.update_depth (Binary64.init (Binary64.Int 1))
          (Binary64.Int 12))
       (Binary64.Int 9))
  = Binary64.Ok (Binary64.Float PrimFloat.one).
Proof. vm_compute. reflexivity. Qed.

Example binary64_range_border :
  (exists f, Binary64.to_float (Binary64.Int (2 ^ 1024 - 2 ^ 971))
             = Binary64.Ok f)
  /\ Binary64.to_float (Binary64.Int (2 ^ 1024 - 2 ^ 970))
     = Binary64.Raise Binary64.OverflowError
  /\ Binary64.to_float (Binary64.Int (- (2 ^ 1024 - 2 ^ 970)))
     = Binary64.Raise Binary64.OverflowError.
Proof.
  split; [eexists; vm_compute; reflexivity|].
  split; vm_compute; reflexivity.
Qed.

Example binary64_safe_stop_sinking_overflows :
  Binary64.calculate_safe_stop_time Binary64.abyss_sinking
  = Binary64.Raise Binary64.OverflowError.
Proof. vm_compute. reflexivity. Qed.

(** The driver at the end of the module: enriched air, depth [i + 1],
    ascent rate 9. *)
Example driver_first_record :
  let dc := update_ascent_rate (update_depth (init 0.32) 1) 9 in
  calculate_PO2 dc == 0.352 /\ calculate_NDL dc = 60%Z
  /\ calculate_safe_stop_time dc = Ok 0.
Proof. vm_compute. intuition congruence. Qed.

(** ** The limit-time table *)

Section Table.

(** The PO2 value that the table is searched for. *)
Variable po2 : Q.

(** What the loop reads at index [n]: the sorted keys are the table's keys
    in the order of the table, the limits fall and the keys rise. *)
Lemma table_at n :
  (n < 20)%nat ->
  list_getitem sorted_po2_keys (Z.of_nat n) = Ok (key_at n)
  /\ list_getitem sorted_po2_keys (Z.of_nat n + 1) = Ok (key_at (S n))
  /\ dict_getitem cns_limits (key_at n) = Ok (limit_at n)
  /\ dict_getitem cns_limits (key_at (S n)) = Ok (limit_at (S n))
  /\ key_at n < key_at (S n)
  /\ 3 <= limit_at (S n) /\ limit_at (S n) < limit_at n.
Proof.
  intros Hn.
  do 20 (destruct n as [|n];
         [vm_compute; repeat split; discriminate |]).
  lia.
Qed.

Lemma interpolate_at n :
  (n < 20)%nat -> interpolate po2 (Z.of_nat n) = Ok (interpolation n po2).
Proof.
  intros Hn. destruct (table_at n Hn) as (Hlo & Hhi & Tlo & Thi & Hlt & _).
  unfold interpolate. rewrite Hhi. cbn [bind]. rewrite Thi. cbn [bind].
  rewrite Hlo. cbn [bind]. rewrite Tlo. cbn [bind].
  rewrite truediv_nonzero by lra. reflexivity.
Qed.

(** One turn of the loop. *)
Lemma find_limit_cons n rest :
  (n < 20)%nat ->
  find_limit po2 (Z.of_nat n :: rest) =
  if le (key_at n) po2 && lt po2 (key_at (S n))
  then Ok (Some (interpolation n po2))
  else find_limit po2 rest.
Proof.
  intros Hn. destruct (table_at n Hn) as (Hlo & Hhi & _).
  cbn [find_limit]. rewrite Hlo. cbn [bind].
  destruct (le (key_at n) po2); [|reflexivity].
  rewrite Hhi. cbn [bind andb].
  destruct (lt po2 (key_at (S n))); [|reflexivity].
  rewrite interpolate_at by assumption. reflexivity.
Qed.

(** The loop over the indices [a], ..., [a + b - 1]: it never raises, it
    leaves with the interpolation in the first bracket that holds [po2],
    and it runs to its end only when no bracket does. *)
Lemma find_limit_seq b : forall a,
  (a + b <= 20)%nat ->
  match find_limit po2 (map Z.of_nat (seq a b)) with
  | Ok (Some l) =>
      exists n, (a <= n < a + b)%nat
                /\ key_at n <= po2 /\ po2 < key_at (S n)
                /\ l = interpolation n po2
  | Ok None =>
      forall n, (a <= n < a + b)%nat ->
                ~ (key_at n <= po2 /\ po2 < key_at (S n))
  | Raise _ => False
  end.
Proof.
  induction b as [|b IH]; intros a Hab.
  - cbn. intros n Hn. lia.
  - cbn [seq map]. rewrite find_limit_cons by lia.
    destruct (le (key_at a) po2) eqn:Hle; cbn [andb].
    + destruct (lt po2 (key_at (S a))) eqn:Hlt.
      * exists a. apply le_true in Hle. apply lt_true in Hlt.
        repeat split; try assumption; lia.
      * specialize (IH (S a) ltac:(lia)).
        destruct (find_limit po2 (map Z.of_nat (seq (S a) b)))
          as [[l|]|e]; try assumption.
        -- destruct IH as (n & Hn & H). exists n. split; [lia|exact H].
        -- intros n Hn [H1 H2].
           destruct (Nat.eq_dec n a) as [->|Hne].
           ++ apply lt_false in Hlt. lra.
           ++ apply (IH n); [lia | now split].
    + specialize (IH (S a) ltac:(lia)).
      destruct (find_limit po2 (map Z.of_nat (seq (S a) b)))
        as [[l|]|e]; try assumption.
      * destruct IH as (n & Hn & H). exists n. split; [lia|exact H].
      * intros n Hn [H1 H2].
        destruct (Nat.eq_dec n a) as [->|Hne].
        -- apply le_false in Hle. lra.
        -- apply (IH n); [lia | now split].
Qed.

(** Keys rise along the table. *)
Lemma key_at_mono m : forall n, (n <= m <= 20)%nat -> key_at n <= key_at m.
Proof.
  induction m as [|m IH]; intros n Hnm.
  - replace n with 0%nat by lia. lra.
  - destruct (Nat.eq_dec n (S m)) as [->|Hne]; [lra|].
    specialize (IH n ltac:(lia)).
    destruct (table_at m ltac:(lia)) as (_ & _ & _ & _ & Hlt & _). lra.
Qed.

(** When no bracket holds [po2], it lies outside of the table. *)
Lemma outside_table :
  (forall n, (0 <= n < 0 + 20)%nat ->
             ~ (key_at n <= po2 /\ po2 < key_at (S n))) ->
  po2 < key_at 0 \/ key_at 20 <= po2.
Proof.
  intros Hno.
  destruct (Qlt_le_dec po2 (key_at 0)) as [Hlow|Hlow]; [now left|right].
  assert (Hall : forall m, (m <= 20)%nat -> key_at m <= po2).
  { induction m as [|m IH]; intros Hm; [assumption|].
    specialize (IH ltac:(lia)).
    destruct (Qlt_le_dec po2 (key_at (S m))) as [Hlt|Hge]; [|assumption].
    exfalso. apply (Hno m); [lia | now split]. }
  apply Hall. lia.
Qed.

(** The three ways in which [limit_time] gets its value. *)
Lemma cns_limit_time_cases :
  (po2 < 1 /\ cns_limit_time po2 = Ok 570)
  \/ (3 <= po2 /\ cns_limit_time po2 = Ok 3)
  \/ (exists n, (n < 20)%nat
                /\ key_at n <= po2 /\ po2 < key_at (S n)
                /\ cns_limit_time po2 = Ok (interpolation n po2)).
Proof.
  unfold cns_limit_time.
  change (range (len sorted_po2_keys - 1)) with (map Z.of_nat (seq 0 20)).
  pose proof (find_limit_seq 20 0 ltac:(lia)) as H.
  destruct (find_limit po2 (map Z.of_nat (seq 0 20))) as [[l|]|e];
    [| |contradiction]; cbn [bind].
  - right; right. destruct H as (n & Hn & Hlo & Hhi & ->).
    exists n. repeat split; try assumption; lia.
  - change (list_getitem sorted_po2_keys (-1)) with (Ok (A:=Q) 3.0).
    change (list_getitem sorted_po2_keys 0) with (Ok (A:=Q) 1.0).
    cbn [bind].
    change (dict_getitem cns_limits 3.0) with (Ok (A:=Q) 3).
    change (dict_getitem cns_limits 1.0) with (Ok (A:=Q) 570).
    apply outside_table in H.
    change (key_at 0) with 1.0 in H. change (key_at 20) with 3.0 in H.
    destruct (ge po2 3.0) eqn:Hge.
    + right; left. apply ge_true in Hge. split; [lra|reflexivity].
    + left. apply ge_false in Hge. destruct H as [H|H]; [|lra].
      split; [lra|reflexivity].
Qed.

(** Inside a bracket the interpolated limit stays between the limits of
    its two ends. *)
Lemma interpolation_bounds n :
  (n < 20)%nat -> key_at n <= po2 -> po2 < key_at (S n) ->
  limit_at (S n) < interpolation n po2 /\ interpolation n po2 <= limit_at n.
Proof.
  intros Hn Hlo Hhi.
  destruct (table_at n Hn) as (_ & _ & _ & _ & Hlt & _ & Hdec).
  unfold interpolation.
  set (d := key_at (S n) - key_at n) in *.
  set (r := (limit_at (S n) - limit_at n) / d).
  assert (Hd : 0 < d) by (unfold d; lra).
  assert (Hr : r * d == limit_at (S n) - limit_at n).
  { unfold r. field. lra. }
  assert (Hneg : r < 0).
  { destruct (Qlt_le_dec r 0) as [|Hr0]; [assumption|].
    assert (0 <= r * d) by (apply Qmult_le_0_compat; lra). lra. }
  assert (H1 : r * (key_at (S n) - po2) < 0).
  { setoid_replace (r * (key_at (S n) - po2))
      with (- ((- r) * (key_at (S n) - po2))) by ring.
    assert (0 < - r * (key_at (S n) - po2))
      by (apply Qmult_lt_0_compat; lra).
    lra. }
  assert (H2 : r * (po2 - key_at n) <= 0).
  { setoid_replace (r * (po2 - key_at n))
      with (- ((- r) * (po2 - key_at n))) by ring.
    assert (0 <= - r * (po2 - key_at n))
      by (apply Qmult_le_0_compat; lra).
    lra. }
  assert (H3 : r * d == r * (key_at (S n) - po2) + r * (po2 - key_at n))
    by (unfold d; ring).
  split; lra.
Qed.

End Table.

(** ** Consequences for [calculate_CNS] *)

Lemma calculate_CNS_limit self l :
  cns_limit_time (calculate_PO2 self) = Ok l -> 0 < l ->
  calculate_CNS self = Ok (dive_time self / l * 100).
Proof.
  intros Hl Hpos. unfold calculate_CNS. cbv zeta. rewrite Hl. cbn [bind].
  rewrite truediv_nonzero by lra. reflexivity.
Qed.

Lemma interpolation_positive n po2 :
  (n < 20)%nat -> key_at n <= po2 -> po2 < key_at (S n) ->
  3 < interpolation n po2.
Proof.
  intros Hn Hlo Hhi.
  destruct (interpolation_bounds po2 n Hn Hlo Hhi) as [Hb _].
  destruct (table_at n Hn) as (_ & _ & _ & _ & _ & H3 & _). lra.
Qed.

Lemma interpolation_at_key n po2 :
  po2 == key_at n -> interpolation n po2 == limit_at n.
Proof. intros H. unfold interpolation. rewrite H. unfold Qdiv. ring. Qed.

(** A value lies in at most one bracket. *)
Lemma bracket_unique po2 n m :
  (n < 20)%nat -> (m < 20)%nat ->
  key_at n <= po2 -> po2 < key_at (S n) ->
  key_at m <= po2 -> po2 < key_at (S m) ->
  n = m.
Proof.
  intros Hn Hm Hn1 Hn2 Hm1 Hm2.
  destruct (Nat.lt_trichotomy n m) as [Hlt|[Heq|Hgt]]; [|assumption|].
  - pose proof (key_at_mono m (S n) ltac:(lia)). lra.
  - pose proof (key_at_mono n (S m) ltac:(lia)). lra.
Qed.

(** ** Properties of the class *)




(** C2: at the depths 0, 12, 12.01, 18, 24, 30 and 31, [calculate_NDL]
    returns 60, 60, 50, 50, 40, 25 and 20; the upper bound of each band
    belongs to the band. *)
Theorem ndl_step_table (self : DiveComputer) :
  calculate_NDL (update_depth self 0) = 60%Z
  /\ calculate_NDL (update_depth self 12) = 60%Z
  /\ calculate_NDL (update_depth self 12.01) = 50%Z
  /\ calculate_NDL (update_depth self 18) = 50%Z
  /\ calculate_NDL (update_depth self 24) = 40%Z
  /\ calculate_NDL (update_depth self 30) = 25%Z
  /\ calculate_NDL (update_depth self 31) = 20%Z.
Proof. repeat split. Qed.

(** C3: when PO2 lies in [1.0, 3.0), [calculate_CNS] takes the two
    neighbouring entries [n], [n + 1] of the 21-entry table with
    key n <= PO2 < key (n + 1), interpolates the limit linearly between
    them and returns dive_time / limit * 100; with dive_time = 1 and
    PO2 = 1.5 the result is (1 / 240) * 100. *)
Theorem cns_interpolation (self : DiveComputer) :
  length cns_limits = 21%nat
  /\ (1 <= calculate_PO2 self -> calculate_PO2 self < 3 ->
      exists n, (n < 20)%nat
        /\ key_at n <= calculate_PO2 self
        /\ calculate_PO2 self < key_at (S n)
        /\ cns_limit_time (calculate_PO2 self)
           = Ok (interpolation n (calculate_PO2 self))
        /\ calculate_CNS self
           = Ok (dive_time self / interpolation n (calculate_PO2 self)
                 * 100))
  /\ (dive_time self == 1 -> calculate_PO2 self == 1.5 ->
      returns (calculate_CNS self) ((1 / 240) * 100)).
Proof.
  split; [reflexivity|].
  assert (Hgen : 1 <= calculate_PO2 self -> calculate_PO2 self < 3 ->
      exists n, (n < 20)%nat
        /\ key_at n <= calculate_PO2 self
        /\ calculate_PO2 self < key_at (S n)
        /\ cns_limit_time (calculate_PO2 self)
           = Ok (interpolation n (calculate_PO2 self))
        /\ calculate_CNS self
           = Ok (dive_time self / interpolation n (calculate_PO2 self)
                 * 100)).
  { intros H1 H3.
    destruct (cns_limit_time_cases (calculate_PO2 self))
      as [[Hlow _]|[[Hhigh _]|(n & Hn & Hlo & Hhi & Hl)]]; try lra.
    exists n. repeat split; try assumption.
    apply calculate_CNS_limit; [assumption|].
    pose proof (interpolation_positive n _ Hn Hlo Hhi). lra. }
  split; [exact Hgen|].
  intros Ht Hpo2.
  destruct Hgen as (n & Hn & Hlo & Hhi & _ & Hcns); try lra.
  assert (n = 5%nat) as ->.
  { apply (bracket_unique (calculate_PO2 self)); try assumption; try lia.
    - change (key_at 5) with 1.5. lra.
    - change (key_at 6) with 1.6. lra. }
  rewrite Hcns. unfold returns.
  rewrite (interpolation_at_key 5) by exact Hpo2.
  change (limit_at 5) with 240. rewrite Ht. reflexivity.
Qed.

Lemma cns_interpolation_witness :
  1 <= calculate_PO2 nitrox50_at_20
  /\ calculate_PO2 nitrox50_at_20 < 3
  /\ dive_time nitrox50_at_20 == 1
  /\ calculate_PO2 nitrox50_at_20 == 1.5
  /\ (exists n, (n < 20)%nat
       /\ key_at n <= calculate_PO2 nitrox50_at_20
       /\ calculate_PO2 nitrox50_at_20 < key_at (S n)
       /\ cns_limit_time (calculate_PO2 nitrox50_at_20)
          = Ok (interpolation n (calculate_PO2 nitrox50_at_20))
       /\ calculate_CNS nitrox50_at_20
          = Ok (dive_time nitrox50_at_20
                / interpolation n (calculate_PO2 nitrox50_at_20) * 100))
  /\ returns (calculate_CNS nitrox50_at_20) ((1 / 240) * 100).
Proof.
  assert (H1 : 1 <= calculate_PO2 nitrox50_at_20)
    by (vm_compute; discriminate).
  assert (H3 : calculate_PO2 nitrox50_at_20 < 3) by (vm_compute; reflexivity).
  assert (Ht : dive_time nitrox50_at_20 == 1) by (vm_compute; reflexivity).
  assert (Hp : calculate_PO2 nitrox50_at_20 == 1.5)
    by (vm_compute; reflexivity).
  repeat (split; [assumption|]).
  destruct (cns_interpolation nitrox50_at_20) as (_ & Hgen & Hpoint).
  split; [exact (Hgen H1 H3) | exact (Hpoint Ht Hp)].
Defined.

(** C4: when PO2 is below 1.0 the limit time is 570, the limit at PO2 = 1.0;
    when PO2 is 3.0 or more it is 3; nothing is extrapolated.  Air at the
    surface (PO2 = 0.21) is an instance of the former. *)
Theorem cns_edge_clamping (self : DiveComputer) :
  (calculate_PO2 self < 1 ->
     cns_limit_time (calculate_PO2 self) = Ok 570
     /\ calculate_CNS self = Ok (dive_time self / 570 * 100))
  /\ (3 <= calculate_PO2 self ->
       cns_limit_time (calculate_PO2 self) = Ok 3
       /\ calculate_CNS self = Ok (dive_time self / 3 * 100))
  /\ returns (cns_limit_time 1.0) 570
  /\ cns_limit_time (calculate_PO2 init_default) = Ok 570.
Proof.
  split; [intros Hlt; split | split; [intros Hge; split | split]].
  - destruct (cns_limit_time_cases (calculate_PO2 self))
      as [[_ Hl]|[[Hhigh _]|(n & Hn & Hlo & _)]]; [assumption|lra|].
    pose proof (key_at_mono n 0 ltac:(lia)) as Hk.
    change (key_at 0) with 1.0 in Hk. lra.
  - destruct (cns_limit_time_cases (calculate_PO2 self))
      as [[_ Hl]|[[Hhigh _]|(n & Hn & Hlo & _)]];
      [apply calculate_CNS_limit; [assumption|lra] | lra |].
    pose proof (key_at_mono n 0 ltac:(lia)) as Hk.
    change (key_at 0) with 1.0 in Hk. lra.
  - destruct (cns_limit_time_cases (calculate_PO2 self))
      as [[Hlow _]|[[_ Hl]|(n & Hn & _ & Hhi & _)]]; [lra|assumption|].
    pose proof (key_at_mono 20 (S n) ltac:(lia)) as Hk.
    change (key_at 20) with 3.0 in Hk. lra.
  - destruct (cns_limit_time_cases (calculate_PO2 self))
      as [[Hlow _]|[[_ Hl]|(n & Hn & _ & Hhi & _)]];
      [lra | apply calculate_CNS_limit; [assumption|lra] |].
    pose proof (key_at_mono 20 (S n) ltac:(lia)) as Hk.
    change (key_at 20) with 3.0 in Hk. lra.
  - vm_compute. reflexivity.
  - reflexivity.
Qed.

Lemma cns_edge_clamping_witness :
  calculate_PO2 init_default < 1
  /\ 3 <= calculate_PO2 oxygen_at_20
  /\ calculate_CNS init_default = Ok (dive_time init_default / 570 * 100)
  /\ calculate_CNS oxygen_at_20 = Ok (dive_time oxygen_at_20 / 3 * 100).
Proof.
  assert (H1 : calculate_PO2 init_default < 1) by (vm_compute; reflexivity).
  assert (H3 : 3 <= calculate_PO2 oxygen_at_20)
    by (vm_compute; discriminate).
  repeat (split; [assumption|]).
  split.
  - exact (proj2 (proj1 (cns_edge_clamping init_default) H1)).
  - exact (proj2 (proj1 (proj2 (cns_edge_clamping oxygen_at_20)) H3)).
Defined.







(** C7: a new session is inactive; [start_dive] makes it active and leaves
    the dive time alone; [stop_dive] makes it inactive, clears the start
    time and keeps the dive time; [calculate_dive_time] sets the dive time
    to (now - start) / 60 while active and changes nothing while inactive;
    [stop_dive] changes nothing on an inactive session. *)
Theorem session_transitions (self : DiveComputer) (now : Q) :
  (forall f, dive_active (init f) = false)
  /\ (dive_active (start_dive self now) = true
      /\ start_time (start_dive self now) = Some now
      /\ dive_time (start_dive self now) = dive_time self)
  /\ (dive_active (stop_dive self) = false
      /\ start_time (stop_dive self) = None
      /\ dive_time (stop_dive self) = dive_time self)
  /\ (forall t0, start_time self = Some t0 ->
        dive_active self = true
        /\ dive_time (calculate_dive_time self now) = (now - t0) / 60
        /\ start_time (calculate_dive_time self now) = Some t0)
  /\ (dive_active self = false -> calculate_dive_time self now = self)
  /\ (dive_active self = false -> stop_dive self = self).
Proof.
  repeat apply conj; try reflexivity.
  - intros t0 H. unfold dive_active, calculate_dive_time. rewrite H.
    cbn [dive_time start_time]. repeat split.
  - unfold dive_active, calculate_dive_time.
    destruct (start_time self); [discriminate|reflexivity].
  - unfold dive_active, stop_dive. destruct self as [f d st t r]. cbn.
    destruct st; [discriminate|reflexivity].
Qed.

Lemma session_transitions_witness :
  start_time started_at_100 = Some 100
  /\ dive_active stopped_at_220 = false
  /\ dive_time (calculate_dive_time started_at_100 220) = (220 - 100) / 60
  /\ calculate_dive_time stopped_at_220 500 = stopped_at_220
  /\ stop_dive stopped_at_220 = stopped_at_220
  /\ dive_time stopped_at_220 == 2.
Proof.
  assert (Hs : start_time started_at_100 = Some 100) by reflexivity.
  assert (Hi : dive_active stopped_at_220 = false) by reflexivity.
  repeat (split; [assumption|]).
  destruct (session_transitions started_at_100 220)
    as (_ & _ & _ & Hactive & _).
  destruct (session_transitions stopped_at_220 500)
    as (_ & _ & _ & _ & Hidle & Hstop).
  split; [exact (proj1 (proj2 (Hactive 100 Hs)))|].
  split; [exact (Hidle Hi)|].
  split; [exact (Hstop Hi)|].
  vm_compute. reflexivity.
Defined.

(** C8: [update_depth] replaces the depth by the value given, whatever it
    is (negative values too), and touches nothing else; the last write
    wins; [update_ascent_rate] does the same for the ascent rate. *)
Theorem setters_replace (self : DiveComputer) (v w : Q) :
  depth (update_depth self v) = v
  /\ depth (update_depth self (- v)) = - v
  /\ update_depth (update_depth self w) v = update_depth self v
  /\ (fo2 (update_depth self v), start_time (update_depth self v),
      dive_time (update_depth self v), ascent_rate (update_depth self v))
     = (fo2 self, start_time self, dive_time self, ascent_rate self)
  /\ ascent_rate (update_ascent_rate self v) = v
  /\ ascent_rate (update_ascent_rate self (- v)) = - v
  /\ update_ascent_rate (update_ascent_rate self w) v
     = update_ascent_rate self v
  /\ (fo2 (update_ascent_rate self v), start_time (update_ascent_rate self v),
      dive_time (update_ascent_rate self v), depth (update_ascent_rate self v))
     = (fo2 self, start_time self, dive_time self, depth self).
Proof. repeat apply conj; reflexivity. Qed.

(** C9: whatever the state, the limit time that [calculate_CNS] divides by
    is at least 3, hence positive, and the division does not raise:
    [calculate_CNS] returns dive_time / limit * 100. *)
Theorem cns_limit_positive (self : DiveComputer) :
  exists limit_time : Q,
    cns_limit_time (calculate_PO2 self) = Ok limit_time
    /\ 3 <= limit_time
    /\ 0 < limit_time
    /\ truediv (dive_time self) limit_time
       = Ok (dive_time self / limit_time)
    /\ calculate_CNS self = Ok (dive_time self / limit_time * 100).
Proof.
  assert (H : exists l, cns_limit_time (calculate_PO2 self) = Ok l /\ 3 <= l).
  { destruct (cns_limit_time_cases (calculate_PO2 self))
      as [[_ Hl]|[[_ Hl]|(n & Hn & Hlo & Hhi & Hl)]].
    - exists 570. split; [assumption|lra].
    - exists 3. split; [assumption|lra].
    - exists (interpolation n (calculate_PO2 self)). split; [assumption|].
      pose proof (interpolation_positive n _ Hn Hlo Hhi). lra. }
  destruct H as (l & Hl & H3). exists l.
  repeat apply conj; try assumption; try lra.
  - apply truediv_nonzero. lra.
  - apply calculate_CNS_limit; [assumption|lra].
Qed.

(** C10: [calculate_NDL] does not rise with the depth, and its value is one
    of 60, 50, 40, 25, 20. *)
Theorem ndl_monotone_range (s1 s2 : DiveComputer) :
  (depth s1 <= depth s2 -> (calculate_NDL s2 <= calculate_NDL s1)%Z)
  /\ In (calculate_NDL s1) [60; 50; 40; 25; 20]%Z.
Proof.
  unfold calculate_NDL. split.
  - intros Hd.
    repeat match goal with
           | |- context [le ?a ?b] =>
               let E := fresh "E" in
               destruct (le a b) eqn:E;
               [apply le_true in E | apply le_false in E]
           end;
      first [lia | exfalso; lra].
  - repeat match goal with
           | |- context [le ?a ?b] => destruct (le a b)
           end;
      cbn; tauto.
Qed.

Lemma ndl_monotone_range_witness :
  depth at_depth_10 <= depth at_depth_20
  /\ (calculate_NDL at_depth_20 <= calculate_NDL at_depth_10)%Z.
Proof.
  assert (Hd : depth at_depth_10 <= depth at_depth_20)
    by (vm_compute; discriminate).
  split; [assumption|].
  exact (proj1 (ndl_monotone_range at_depth_10 at_depth_20) Hd).
Defined.

(** ** Further properties of the class *)

Lemma div_le_mono a b r : 0 < r -> a <= b -> a / r <= b / r.
Proof.
  intros Hr Hab. unfold Qdiv. apply Qmult_le_compat_r; [assumption|].
  apply Qlt_le_weak. now apply Qinv_lt_0_compat.
Qed.

Lemma div_nonneg a r : 0 < r -> 0 <= a -> 0 <= a / r.
Proof.
  intros Hr Ha. unfold Qdiv. apply Qmult_le_0_compat; [assumption|].
  apply Qlt_le_weak. now apply Qinv_lt_0_compat.
Qed.

(** X1: for a depth and an ascent rate within the binary64 range, the only
    exception that [calculate_safe_stop_time] can raise is
    [ZeroDivisionError], and it raises it exactly when depth > 3 and the
    ascent rate is zero. *)
Theorem safe_stop_raises_iff_in_range (self : DiveComputer) (e : exn) :
  in_float_range (depth self) -> in_float_range (ascent_rate self) ->
  (raises (calculate_safe_stop_time self) e
   <-> e = ZeroDivisionError /\ 3 < depth self /\ ascent_rate self == 0).
Proof.
  intros _ _.
  unfold raises, calculate_safe_stop_time, truediv. cbv zeta.
  destruct (gt (depth self) 3) eqn:Hd;
    [apply gt_true in Hd | apply gt_false in Hd].
  - destruct (Qeq_bool (ascent_rate self) 0) eqn:Hr.
    + apply Qeq_bool_iff in Hr. split.
      * intros H. injection H as <-. repeat split; assumption.
      * intros (-> & _). reflexivity.
    + split; [discriminate|].
      intros (_ & _ & Hz). apply Qeq_bool_iff in Hz. congruence.
  - split; [discriminate|]. intros (_ & H3 & _). lra.
Qed.

Lemma safe_stop_raises_iff_in_range_witness :
  in_float_range (depth at_depth_12)
  /\ in_float_range (ascent_rate at_depth_12)
  /\ raises (calculate_safe_stop_time at_depth_12) ZeroDivisionError.
Proof.
  assert (Rd : in_float_range (depth at_depth_12)) by float_range.
  assert (Rr : in_float_range (ascent_rate at_depth_12)) by float_range.
  repeat (split; [assumption|]).
  apply (proj2 (safe_stop_raises_iff_in_range at_depth_12 ZeroDivisionError
                  Rd Rr)).
  repeat split; vm_compute; reflexivity.
Defined.

(** X3: with a positive ascent rate, for depths and a rate of at most 2 ** 53
    in absolute value, [calculate_safe_stop_time] returns, its value is
    never negative, and it never falls when the depth grows. *)
Theorem safe_stop_monotone_in_range (self : DiveComputer) (d1 d2 : Q) :
  in_exact_range (ascent_rate self) ->
  in_exact_range d1 -> in_exact_range d2 ->
  0 < ascent_rate self -> d1 <= d2 ->
  exists t1 t2 : Q,
    calculate_safe_stop_time (update_depth self d1) = Ok t1
    /\ calculate_safe_stop_time (update_depth self d2) = Ok t2
    /\ 0 <= t1 /\ t1 <= t2.
Proof.
  intros _ _ _ Hr Hd. unfold calculate_safe_stop_time. cbv zeta.
  cbn [depth ascent_rate update_depth].
  destruct (gt d1 3) eqn:H1; [apply gt_true in H1 | apply gt_false in H1];
    (destruct (gt d2 3) eqn:H2;
     [apply gt_true in H2 | apply gt_false in H2]);
    try (exfalso; lra);
    rewrite ?truediv_nonzero by lra;
    eexists; eexists; repeat apply conj; try reflexivity.
  - apply div_nonneg; lra.
  - apply div_le_mono; lra.
  - lra.
  - apply div_nonneg; lra.
  - lra.
  - lra.
Qed.

Lemma safe_stop_monotone_in_range_witness :
  in_exact_range (ascent_rate ascending_from_12)
  /\ in_exact_range 5 /\ in_exact_range 20
  /\ 0 < ascent_rate ascending_from_12 /\ 5 <= 20
  /\ exists t1 t2 : Q,
       calculate_safe_stop_time (update_depth ascending_from_12 5) = Ok t1
       /\ calculate_safe_stop_time (update_depth ascending_from_12 20)
          = Ok t2
       /\ 0 <= t1 /\ t1 <= t2.
Proof.
  assert (Rr : in_exact_range (ascent_rate ascending_from_12))
    by float_range.
  assert (R1 : in_exact_range 5) by float_range.
  assert (R2 : in_exact_range 20) by float_range.
  assert (Hr : 0 < ascent_rate ascending_from_12)
    by (vm_compute; reflexivity).
  assert (Hd : 5 <= 20) by (vm_compute; discriminate).
  repeat (split; [assumption|]).
  exact (safe_stop_monotone_in_range ascending_from_12 5 20 Rr R1 R2 Hr Hd).
Defined.

(** X4: the value of [calculate_NDL] tells the depth band: 60 exactly for
    depth <= 12, 50 for 12 < depth <= 18, 40 for 18 < depth <= 24, 25 for
    24 < depth <= 30 and 20 for depth > 30. *)
Theorem ndl_bands (self : DiveComputer) :
  (calculate_NDL self = 60%Z <-> depth self <= 12)
  /\ (calculate_NDL self = 50%Z <-> 12 < depth self /\ depth self <= 18)
  /\ (calculate_NDL self = 40%Z <-> 18 < depth self /\ depth self <= 24)
  /\ (calculate_NDL self = 25%Z <-> 24 < depth self /\ depth self <= 30)
  /\ (calculate_NDL self = 20%Z <-> 30 < depth self).
Proof.
  unfold calculate_NDL.
  repeat match goal with
         | |- context [le ?a ?b] =>
             let E := fresh "E" in
             destruct (le a b) eqn:E;
             [apply le_true in E | apply le_false in E]
         end;
    repeat apply conj; intros H; try discriminate H;
    try match type of H with _ /\ _ => destruct H as [H H'] end;
    first [reflexivity | lra | split; lra | exfalso; lra].
Qed.

Lemma ndl_bands_witness :
  18 < depth at_depth_20 /\ depth at_depth_20 <= 24
  /\ calculate_NDL at_depth_20 = 40%Z.
Proof.
  assert (H1 : 18 < depth at_depth_20) by (vm_compute; reflexivity).
  assert (H2 : depth at_depth_20 <= 24) by (vm_compute; discriminate).
  repeat (split; [assumption|]).
  exact (proj2 (proj1 (proj2 (proj2 (ndl_bands at_depth_20)))) (conj H1 H2)).
Defined.

(** ** Shape of the limit-time curve *)

Lemma div_le_antitone t l1 l2 :
  0 <= t -> 0 < l2 -> l2 <= l1 -> t / l1 <= t / l2.
Proof.
  intros Ht H2 H12. apply Qle_shift_div_r; [lra|].
  assert (Hx : 0 <= t / l2) by (apply div_nonneg; assumption).
  assert (Hm : l2 * (t / l2) == t) by (apply Qmult_div_r; lra).
  assert (Hle : l2 * (t / l2) <= l1 * (t / l2))
    by (apply Qmult_le_compat_r; assumption).
  setoid_replace (t / l2 * l1) with (l1 * (t / l2)) by ring. lra.
Qed.

(** Limits fall along the table. *)
Lemma limit_at_antitone m : forall n,
  (n <= m <= 20)%nat -> limit_at m <= limit_at n.
Proof.
  induction m as [|m IH]; intros n Hnm.
  - replace n with 0%nat by lia. lra.
  - destruct (Nat.eq_dec n (S m)) as [->|Hne]; [lra|].
    specialize (IH n ltac:(lia)).
    destruct (table_at m ltac:(lia)) as (_ & _ & _ & _ & _ & _ & Hlt). lra.
Qed.

Lemma slope_negative n :
  (n < 20)%nat ->
  (limit_at (S n) - limit_at n) / (key_at (S n) - key_at n) < 0.
Proof.
  intros Hn. destruct (table_at n Hn) as (_ & _ & _ & _ & Hk & _ & Hl).
  apply Qlt_shift_div_r; lra.
Qed.

(** Inside one bracket the interpolated limit falls as PO2 rises. *)
Lemma interpolation_antitone n p q :
  (n < 20)%nat -> p <= q -> interpolation n q <= interpolation n p.
Proof.
  intros Hn Hpq. pose proof (slope_negative n Hn) as Hs.
  unfold interpolation.
  set (r := (limit_at (S n) - limit_at n) / (key_at (S n) - key_at n)) in *.
  assert (H : 0 <= (- r) * (q - p)) by (apply Qmult_le_0_compat; lra).
  setoid_replace (r * (q - key_at n) + limit_at n)
    with (r * (p - key_at n) + limit_at n - (- r) * (q - p)) by ring.
  lra.
Qed.

(** The limit time as a function of PO2: defined everywhere, falling, and
    between the last and the first limit of the table. *)
Lemma cns_limit_time_order (p q : Q) :
  p <= q ->
  exists lp lq : Q,
    cns_limit_time p = Ok lp /\ cns_limit_time q = Ok lq
    /\ lq <= lp /\ 3 <= lq /\ lp <= 570.
Proof.
  intros Hpq.
  assert (Hrange : forall x n, (n < 20)%nat ->
            key_at n <= x -> x < key_at (S n) ->
            3 < interpolation n x /\ interpolation n x <= 570).
  { intros x n Hn Hlo Hhi. split; [now apply interpolation_positive|].
    destruct (interpolation_bounds x n Hn Hlo Hhi) as [_ Hup].
    pose proof (limit_at_antitone n 0 ltac:(lia)) as H0.
    change (limit_at 0) with 570 in H0. lra. }
  assert (Hk0 : forall n, (n <= 20)%nat -> 1 <= key_at n).
  { intros n Hn. pose proof (key_at_mono n 0 ltac:(lia)) as H.
    change (key_at 0) with 1.0 in H. lra. }
  assert (Hk20 : forall n, (n <= 20)%nat -> key_at n <= 3).
  { intros n Hn. pose proof (key_at_mono 20 n ltac:(lia)) as H.
    change (key_at 20) with 3.0 in H. lra. }
  destruct (cns_limit_time_cases p)
    as [[Hp Lp]|[[Hp Lp]|(n & Hn & Hplo & Hphi & Lp)]];
    destruct (cns_limit_time_cases q)
      as [[Hq Lq]|[[Hq Lq]|(m & Hm & Hqlo & Hqhi & Lq)]];
    rewrite Lp, Lq; eexists; eexists;
    (split; [reflexivity|]); (split; [reflexivity|]).
  - lra.
  - lra.
  - destruct (Hrange q m Hm Hqlo Hqhi). lra.
  - lra.
  - lra.
  - pose proof (Hk20 (S m) ltac:(lia)). lra.
  - pose proof (Hk0 n ltac:(lia)). lra.
  - destruct (Hrange p n Hn Hplo Hphi). lra.
  - destruct (Hrange p n Hn Hplo Hphi) as [Hp3 Hp570].
    destruct (Hrange q m Hm Hqlo Hqhi) as [Hq3 Hq570].
    repeat split; try lra.
    destruct (Nat.lt_trichotomy n m) as [Hlt|[<-|Hgt]].
    + destruct (interpolation_bounds p n Hn Hplo Hphi) as [Hlow _].
      destruct (interpolation_bounds q m Hm Hqlo Hqhi) as [_ Hup].
      pose proof (limit_at_antitone m (S n) ltac:(lia)). lra.
    + now apply interpolation_antitone.
    + pose proof (key_at_mono n (S m) ltac:(lia)). lra.
Qed.

Lemma cns_limit_time_range (po2 : Q) :
  exists l : Q, cns_limit_time po2 = Ok l /\ 3 <= l /\ l <= 570.
Proof.
  destruct (cns_limit_time_order po2 po2 ltac:(lra))
    as (l & l' & L & L' & _ & H3 & H570).
  rewrite L in L'. injection L' as <-. now exists l.
Qed.

(** X5: the limit time that [calculate_CNS] uses never rises with PO2 and
    always lies between 3 and 570, the last and the first limit of the
    table. *)
Theorem limit_time_antitone (p q : Q) :
  p <= q ->
  exists lp lq : Q,
    cns_limit_time p = Ok lp /\ cns_limit_time q = Ok lq
    /\ lq <= lp /\ 3 <= lq /\ lp <= 570.
Proof. exact (cns_limit_time_order p q). Qed.

Lemma limit_time_antitone_witness :
  1.25 <= 2.75
  /\ exists lp lq : Q,
       cns_limit_time 1.25 = Ok lp /\ cns_limit_time 2.75 = Ok lq
       /\ lq <= lp /\ 3 <= lq /\ lp <= 570.
Proof.
  assert (H : 1.25 <= 2.75) by (vm_compute; discriminate).
  split; [assumption|].
  exact (limit_time_antitone 1.25 2.75 H).
Defined.

(** X6: at every breakpoint of the table the limit time is the tabulated
    limit: the lookup gives back the table, and the curve has no jump
    between neighbouring brackets. *)
Theorem limit_time_at_breakpoint (n : nat) (po2 : Q) :
  (n <= 20)%nat -> po2 == key_at n ->
  returns (cns_limit_time po2) (limit_at n).
Proof.
  intros Hn Hk.
  destruct (cns_limit_time_cases po2)
    as [[Hp L]|[[Hp L]|(m & Hm & Hlo & Hhi & L)]]; rewrite L; unfold returns.
  - pose proof (key_at_mono n 0 ltac:(lia)) as H.
    change (key_at 0) with 1.0 in H. lra.
  - destruct (Nat.eq_dec n 20) as [->|Hne]; [reflexivity|].
    destruct (table_at n ltac:(lia)) as (_ & _ & _ & _ & Hlt & _).
    pose proof (key_at_mono 20 (S n) ltac:(lia)) as H.
    change (key_at 20) with 3.0 in H. lra.
  - assert (m = n) as ->.
    { destruct (Nat.eq_dec n 20) as [->|Hne].
      - pose proof (key_at_mono 20 (S m) ltac:(lia)). lra.
      - destruct (table_at n ltac:(lia)) as (_ & _ & _ & _ & Hlt & _).
        apply (bracket_unique po2); try assumption; try lia; lra. }
    now apply interpolation_at_key.
Qed.

Lemma limit_time_at_breakpoint_witness :
  (7 <= 20)%nat /\ 1.7 == key_at 7
  /\ returns (cns_limit_time 1.7) 120.
Proof.
  assert (H7 : (7 <= 20)%nat) by lia.
  assert (Hk : 1.7 == key_at 7) by (vm_compute; reflexivity).
  repeat (split; [assumption|]).
  exact (limit_time_at_breakpoint 7 1.7 H7 Hk).
Defined.

(** ** Shape of the CNS percentage *)

Lemma po2_monotone (self : DiveComputer) (d1 d2 : Q) :
  0 <= fo2 self -> d1 <= d2 ->
  calculate_PO2 (update_depth self d1) <= calculate_PO2 (update_depth self d2).
Proof.
  intros Hf Hd. unfold calculate_PO2. cbn [depth fo2 update_depth].
  rewrite !(Qmult_comm (fo2 self)).
  apply Qmult_le_compat_r; [|assumption].
  apply Qplus_le_r. apply div_le_mono; [reflexivity|assumption].
Qed.

(** X7: for a non-negative oxygen fraction and dive time, going deeper never
    lowers the CNS percentage. *)
Theorem cns_monotone_in_depth (self : DiveComputer) (d1 d2 : Q) :
  0 <= fo2 self -> 0 <= dive_time self -> d1 <= d2 ->
  exists c1 c2 : Q,
    calculate_CNS (update_depth self d1) = Ok c1
    /\ calculate_CNS (update_depth self d2) = Ok c2
    /\ c1 <= c2.
Proof.
  intros Hf Ht Hd.
  destruct (cns_limit_time_order _ _ (po2_monotone self d1 d2 Hf Hd))
    as (l1 & l2 & L1 & L2 & Hle & H3 & _).
  exists (dive_time self / l1 * 100), (dive_time self / l2 * 100).
  split; [|split].
  - apply (calculate_CNS_limit (update_depth self d1)); [assumption|lra].
  - apply (calculate_CNS_limit (update_depth self d2)); [assumption|lra].
  - apply Qmult_le_compat_r; [|discriminate].
    apply div_le_antitone; lra.
Qed.

Lemma cns_monotone_in_depth_witness :
  0 <= fo2 nitrox50_at_20 /\ 0 <= dive_time nitrox50_at_20 /\ 15 <= 30
  /\ exists c1 c2 : Q,
       calculate_CNS (update_depth nitrox50_at_20 15) = Ok c1
       /\ calculate_CNS (update_depth nitrox50_at_20 30) = Ok c2
       /\ c1 <= c2.
Proof.
  assert (Hf : 0 <= fo2 nitrox50_at_20) by (vm_compute; discriminate).
  assert (Ht : 0 <= dive_time nitrox50_at_20) by (vm_compute; discriminate).
  assert (Hd : 15 <= 30) by (vm_compute; discriminate).
  repeat (split; [assumption|]).
  exact (cns_monotone_in_depth nitrox50_at_20 15 30 Hf Ht Hd).
Defined.

(** X8: for an oxygen fraction and a depth within the binary64 range and a
    dive time of at most 2 ** 53 in absolute value, [calculate_CNS] returns;
    for a non-negative dive time the percentage lies between
    dive_time / 570 * 100 and dive_time / 3 * 100, and it is 0 as long as the
    dive time is 0, whatever the depth. *)
Theorem cns_bounds_in_range (self : DiveComputer) :
  in_float_range (fo2 self) -> in_float_range (depth self) ->
  in_exact_range (dive_time self) ->
  exists c : Q,
    calculate_CNS self = Ok c
    /\ (0 <= dive_time self ->
        dive_time self / 570 * 100 <= c /\ c <= dive_time self / 3 * 100)
    /\ (dive_time self == 0 -> c == 0).
Proof.
  intros _ _ _.
  destruct (cns_limit_time_range (calculate_PO2 self))
    as (l & L & H3 & H570).
  exists (dive_time self / l * 100).
  split; [apply calculate_CNS_limit; [assumption|lra]|]. split.
  - intros Ht. split; (apply Qmult_le_compat_r; [|discriminate]);
      apply div_le_antitone; lra.
  - intros Hz. rewrite Hz. unfold Qdiv. ring.
Qed.

Lemma cns_bounds_in_range_witness :
  in_float_range (fo2 nitrox50_at_20)
  /\ in_float_range (depth nitrox50_at_20)
  /\ in_exact_range (dive_time nitrox50_at_20)
  /\ 0 <= dive_time nitrox50_at_20
  /\ exists c : Q,
       calculate_CNS nitrox50_at_20 = Ok c
       /\ dive_time nitrox50_at_20 / 570 * 100 <= c
       /\ c <= dive_time nitrox50_at_20 / 3 * 100.
Proof.
  assert (Rf : in_float_range (fo2 nitrox50_at_20)) by float_range.
  assert (Rd : in_float_range (depth nitrox50_at_20)) by float_range.
  assert (Rt : in_exact_range (dive_time nitrox50_at_20)) by float_range.
  assert (Ht : 0 <= dive_time nitrox50_at_20) by (vm_compute; discriminate).
  repeat (split; [assumption|]).
  destruct (cns_bounds_in_range nitrox50_at_20 Rf Rd Rt) as (c & Hc & Hb & _).
  exists c. split; [exact Hc | exact (Hb Ht)].
Defined.

(** X9: the CNS percentage is 100 or more exactly when the dive time has
    reached the limit time for the current PO2. *)
Theorem cns_full_at_limit (self : DiveComputer) :
  exists limit_time c : Q,
    cns_limit_time (calculate_PO2 self) = Ok limit_time
    /\ calculate_CNS self = Ok c
    /\ (100 <= c <-> limit_time <= dive_time self).
Proof.
  destruct (cns_limit_time_range (calculate_PO2 self)) as (l & L & H3 & _).
  exists l, (dive_time self / l * 100).
  split; [assumption|]. split; [apply calculate_CNS_limit; [assumption|lra]|].
  split.
  - intros H.
    assert (Hm : l * (dive_time self / l) == dive_time self)
      by (apply Qmult_div_r; lra).
    set (x := dive_time self / l) in *.
    assert (H1 : 1 <= x) by lra.
    assert (l * 1 <= l * x).
    { rewrite !(Qmult_comm l). apply Qmult_le_compat_r; lra. }
    lra.
  - intros H.
    assert (H1 : 1 <= dive_time self / l)
      by (apply Qle_shift_div_l; lra).
    set (x := dive_time self / l) in *. lra.
Qed.

(** ** Elapsed time *)

(** X11: [start_dive] forgets any earlier start, so the dive time computed
    afterwards counts from the new reading; of two successive calls of
    [calculate_dive_time] only the later reading counts; and the dive time
    is negative exactly when the clock has gone backwards, as nothing
    clamps it. *)
Theorem elapsed_time_restart (self : DiveComputer) (t0 t1 t2 : Q) :
  dive_time (calculate_dive_time (start_dive self t0) t1) = (t1 - t0) / 60
  /\ calculate_dive_time (calculate_dive_time self t1) t2
     = calculate_dive_time self t2
  /\ (dive_time (calculate_dive_time (start_dive self t0) t1) < 0
      <-> t1 < t0).
Proof.
  split; [reflexivity|]. split.
  - unfold calculate_dive_time.
    destruct (start_time self) as [t|] eqn:Hs; cbn [start_time];
      rewrite ?Hs; reflexivity.
  - cbn [calculate_dive_time start_dive start_time dive_time].
    unfold Qdiv. change (/ 60) with (1 # 60). split; intros H; lra.
Qed.

Lemma no_start_in_tail (c : call) (cs : list call) :
  (forall now, ~ In (StartDive now) (c :: cs)) ->
  forall now, ~ In (StartDive now) cs.
Proof. intros H now Hin. apply (H now). now right. Qed.

(** X12: once the dive is stopped, no sequence of calls without a
    [start_dive] changes the dive time or makes the session active again. *)
Theorem stopped_stays_frozen (self : DiveComputer) (cs : list call) :
  (forall now, ~ In (StartDive now) cs) ->
  dive_time (perform_all (stop_dive self) cs) = dive_time self
  /\ start_time (perform_all (stop_dive self) cs) = None.
Proof.
  intros Hcs.
  assert (Hgen : forall s, start_time s = None ->
            dive_time (perform_all s cs) = dive_time s
            /\ start_time (perform_all s cs) = None).
  { induction cs as [|c cs IH]; intros s Hs; [now split|].
    unfold perform_all in *. cbn [fold_left].
    specialize (IH (no_start_in_tail c cs Hcs)).
    destruct c as [r|d|now| |now]; cbn [perform].
    - apply (IH (update_ascent_rate s r)). exact Hs.
    - apply (IH (update_depth s d)). exact Hs.
    - exfalso. apply (Hcs now). now left.
    - apply (IH (stop_dive s)). reflexivity.
    - unfold calculate_dive_time. rewrite Hs. now apply IH. }
  apply (Hgen (stop_dive self)). reflexivity.
Qed.

Lemma stopped_stays_frozen_witness :
  (forall now, ~ In (StartDive now)
                   [CalculateDiveTime 500; UpdateDepth 30; StopDive;
                    CalculateDiveTime 900])
  /\ dive_time (perform_all (stop_dive (calculate_dive_time started_at_100 220))
                  [CalculateDiveTime 500; UpdateDepth 30; StopDive;
                   CalculateDiveTime 900])
     = dive_time (calculate_dive_time started_at_100 220).
Proof.
  assert (H : forall now, ~ In (StartDive now)
                [CalculateDiveTime 500; UpdateDepth 30; StopDive;
                 CalculateDiveTime 900]).
  { intros now Hin. cbn in Hin.
    repeat (destruct Hin as [Hin|Hin]; [discriminate Hin|]). exact Hin. }
  split; [exact H|].
  exact (proj1 (stopped_stays_frozen
                  (calculate_dive_time started_at_100 220) _ H)).
Defined.

(** X13: over any sequence of calls, the oxygen fraction never changes; the
    depth and the ascent rate are those that the setter calls alone would
    give, and the start time and the dive time are those that the other
    calls alone would give. *)
Theorem setters_and_clock_independent (self : DiveComputer)
  (cs : list call) :
  fo2 (perform_all self cs) = fo2 self
  /\ (depth (perform_all self cs), ascent_rate (perform_all self cs))
     = (depth (perform_all self (filter is_setter cs)),
        ascent_rate (perform_all self (filter is_setter cs)))
  /\ (start_time (perform_all self cs), dive_time (perform_all self cs))
     = (start_time
          (perform_all self (filter (fun c => negb (is_setter c)) cs)),
        dive_time
          (perform_all self (filter (fun c => negb (is_setter c)) cs))).
Proof.
  unfold perform_all. split; [|split].
  - revert self. induction cs as [|c cs IH]; intros self; [reflexivity|].
    cbn [fold_left]. rewrite IH.
    destruct c; cbn [perform]; try reflexivity.
    unfold calculate_dive_time. now destruct (start_time self).
  - assert (Hgen : forall s1 s2,
              depth s1 = depth s2 -> ascent_rate s1 = ascent_rate s2 ->
              (depth (fold_left perform cs s1),
               ascent_rate (fold_left perform cs s1))
              = (depth (fold_left perform (filter is_setter cs) s2),
                 ascent_rate (fold_left perform (filter is_setter cs) s2))).
    { induction cs as [|c cs IH]; intros s1 s2 Hd Hr;
        [cbn; congruence|].
      destruct c as [r|d|now| |now]; cbn [filter is_setter fold_left perform];
        apply IH;
        try (cbn [depth ascent_rate update_ascent_rate update_depth
                  start_dive stop_dive]; congruence).
      all: unfold calculate_dive_time; now destruct (start_time s1). }
    now apply Hgen.
  - assert (Hgen : forall s1 s2,
              start_time s1 = start_time s2 -> dive_time s1 = dive_time s2 ->
              (start_time (fold_left perform cs s1),
               dive_time (fold_left perform cs s1))
              = (start_time
                   (fold_left perform
                      (filter (fun c => negb (is_setter c)) cs) s2),
                 dive_time
                   (fold_left perform
                      (filter (fun c => negb (is_setter c)) cs) s2))).
    { induction cs as [|c cs IH]; intros s1 s2 Hs Ht;
        [cbn; congruence|].
      destruct c as [r|d|now| |now];
        cbn [filter is_setter negb fold_left perform];
        apply IH;
        try (cbn [start_time dive_time update_ascent_rate update_depth
                  start_dive stop_dive]; congruence).
      all: unfold calculate_dive_time; rewrite Hs;
        destruct (start_time s2) eqn:E;
        cbn [start_time dive_time]; congruence. }
    now apply Hgen.
Qed.

(** ** The driver *)

Lemma calculate_CNS_returns (st : DiveComputer) :
  exists c : Q, calculate_CNS st = Ok c.
Proof.
  destruct (cns_limit_time_range (calculate_PO2 st)) as (l & L & H3 & _).
  exists (dive_time st / l * 100). apply calculate_CNS_limit; [assumption|lra].
Qed.

Lemma safe_stop_at_rate_9 (st : DiveComputer) :
  ascent_rate st = 9 ->
  calculate_safe_stop_time st
  = Ok (if gt (depth st) 3 then (depth st - 3) / 9 else 0).
Proof.
  intros Hr. unfold calculate_safe_stop_time. cbv zeta. rewrite Hr.
  destruct (gt (depth st) 3); reflexivity.
Qed.

(** One turn: it does not raise, its row shows the state of that turn, and
    it leaves the depth one metre further down. *)
Lemma record_step_spec (dc : DiveComputer) (i : Z) (now f t0 : Q) :
  fo2 dc = f -> start_time dc = Some t0 ->
  exists row : Row,
    record_step dc i now
    = Ok (update_depth (turn_state f t0 i now) (inject_Z (i + 1) + 1), row)
    /\ row_of_state (turn_state f t0 i now) row.
Proof.
  intros Hf Hs. unfold record_step. cbv zeta.
  assert (Hst : update_ascent_rate
                  (calculate_dive_time (update_depth dc (inject_Z (i + 1)))
                     now) 9
                = turn_state f t0 i now).
  { destruct dc as [f' d st t r]. cbn [fo2 start_time] in Hf, Hs.
    subst f' st. reflexivity. }
  rewrite Hst.
  destruct (calculate_CNS_returns (turn_state f t0 i now)) as (c & Hc).
  rewrite Hc. cbn [bind].
  rewrite (safe_stop_at_rate_9 (turn_state f t0 i now)) by reflexivity.
  cbn [bind]. eexists. split; [reflexivity|].
  unfold row_of_state.
  cbn [row_depth row_dive_time row_po2 row_ndl row_cns row_safe_stop].
  repeat split; [exact Hc | now apply safe_stop_at_rate_9].
Qed.

(** The loop over the indices [a], ..., [a + b - 1], entered at the clock
    call [k] by an active session. *)
Lemma record_loop_spec (clock : nat -> Q) (f t0 : Q) (b : nat) :
  forall (a k : nat) (dc : DiveComputer),
    fo2 dc = f -> start_time dc = Some t0 ->
    exists (dc' : DiveComputer) (rows : list Row),
      record_loop clock k dc (map Z.of_nat (seq a b)) = Ok (dc', rows)
      /\ length rows = b
      /\ (forall j, (j < b)%nat ->
            exists row, nth_error rows j = Some row
              /\ row_of_state
                   (turn_state f t0 (Z.of_nat (a + j)) (clock (k + j)%nat))
                   row)
      /\ fo2 dc' = f /\ start_time dc' = Some t0
      /\ (b = 0%nat -> dc' = dc)
      /\ ((0 < b)%nat ->
          dc' = update_depth
                  (turn_state f t0 (Z.of_nat (a + b - 1))
                     (clock (k + b - 1)%nat))
                  (inject_Z (Z.of_nat (a + b - 1) + 1) + 1)).
Proof.
  induction b as [|b IH]; intros a k dc Hf Hs.
  - exists dc, []. cbn. repeat split; try assumption; try lia.
  - cbn [seq map record_loop].
    destruct (record_step_spec dc (Z.of_nat a) (clock k) f t0 Hf Hs)
      as (row & Hstep & Hrow).
    rewrite Hstep. cbn [bind fst snd].
    destruct (IH (S a) (S k)
                (update_depth (turn_state f t0 (Z.of_nat a) (clock k))
                   (inject_Z (Z.of_nat a + 1) + 1))
                eq_refl eq_refl)
      as (dc' & rows & Hloop & Hlen & Hrows & Hf' & Hs' & Hzero & Hlast).
    rewrite Hloop. cbn [bind fst snd].
    exists dc', (row :: rows). split; [reflexivity|].
    split; [cbn; lia|]. split; [|split; [assumption|split; [assumption|]]].
    + intros [|j] Hj.
      * exists row. split; [reflexivity|].
        now rewrite !Nat.add_0_r.
      * destruct (Hrows j ltac:(lia)) as (r & Hn & Hr).
        exists r. split; [exact Hn|].
        now replace (a + S j)%nat with (S a + j)%nat by lia;
          replace (k + S j)%nat with (S k + j)%nat by lia.
    + split; [lia|]. intros _.
      destruct b as [|b].
      * rewrite (Hzero eq_refl).
        now replace (a + 1 - 1)%nat with a by lia;
          replace (k + 1 - 1)%nat with k by lia.
      * rewrite (Hlast ltac:(lia)).
        now replace (S a + S b - 1)%nat with (a + S (S b) - 1)%nat by lia;
          replace (S k + S b - 1)%nat with (k + S (S b) - 1)%nat by lia.
Qed.

Lemma cns_limit_time_low (po2 : Q) :
  po2 < 1 -> cns_limit_time po2 = Ok 570.
Proof.
  intros Hlt.
  destruct (cns_limit_time_cases po2)
    as [[_ L]|[[Hhigh _]|(n & Hn & Hlo & _)]]; [assumption|lra|].
  pose proof (key_at_mono n 0 ltac:(lia)) as Hk.
  change (key_at 0) with 1.0 in Hk. lra.
Qed.

Lemma run_records_loop (n : Z) (clock : nat -> Q) :
  run_records n clock
  = record_loop clock 1 (start_dive (init 0.32) (clock 0%nat))
      (map Z.of_nat (seq 0 (Z.to_nat n))).
Proof. reflexivity. Qed.

(** X14: for every [record_count] and every clock the driver runs to its end
    without an exception and prints [record_count] rows (none when the count
    is not positive).  At the end the session is still active, with the
    start time of the first clock reading, and after at least one turn its
    depth is [record_count + 1], one metre below the last depth printed,
    its ascent rate is 9 and its dive time is that of the last turn. *)
Theorem run_records_completes (n : Z) (clock : nat -> Q) :
  exists (dc : DiveComputer) (rows : list Row),
    run_records n clock = Ok (dc, rows)
    /\ length rows = Z.to_nat n
    /\ fo2 dc = 0.32
    /\ start_time dc = Some (clock 0%nat)
    /\ ((n <= 0)%Z -> depth dc = 0 /\ ascent_rate dc = 0 /\ rows = [])
    /\ ((0 < n)%Z ->
        depth dc = inject_Z n + 1
        /\ ascent_rate dc = 9
        /\ dive_time dc = (clock (Z.to_nat n) - clock 0%nat) / 60).
Proof.
  rewrite run_records_loop.
  destruct (record_loop_spec clock 0.32 (clock 0%nat) (Z.to_nat n) 0 1
              (start_dive (init 0.32) (clock 0%nat)) eq_refl eq_refl)
    as (dc & rows & Hloop & Hlen & _ & Hf & Hs & Hzero & Hlast).
  exists dc, rows. repeat (split; [assumption|]). split.
  - intros Hn. rewrite Hzero by lia.
    repeat split. apply length_zero_iff_nil. lia.
  - intros Hn. rewrite Hlast by lia.
    cbn [depth ascent_rate dive_time update_depth turn_state].
    replace (Z.of_nat (0 + Z.to_nat n - 1) + 1)%Z with n by lia.
    replace (1 + Z.to_nat n - 1)%nat with (Z.to_nat n) by lia.
    repeat split.
Qed.

Lemma run_records_completes_witness :
  (0 < record_count)%Z
  /\ exists (dc : DiveComputer) (rows : list Row),
       run_records record_count ticking_clock = Ok (dc, rows)
       /\ length rows = 10%nat
       /\ depth dc = inject_Z record_count + 1.
Proof.
  assert (Hn : (0 < record_count)%Z) by reflexivity.
  split; [exact Hn|].
  destruct (run_records_completes record_count ticking_clock)
    as (dc & rows & Hrun & Hlen & _ & _ & _ & Hpos).
  exists dc, rows. split; [exact Hrun|]. split; [exact Hlen|].
  exact (proj1 (Hpos Hn)).
Defined.

Lemma gt_3_inject_Z (j : nat) :
  gt (inject_Z (Z.of_nat j + 1)) 3 = negb (j <? 3)%nat.
Proof.
  destruct (j <? 3)%nat eqn:Hj; cbn [negb].
  - apply Nat.ltb_lt in Hj. apply gt_false.
    change 3 with (inject_Z 3). rewrite <- Zle_Qle. lia.
  - apply Nat.ltb_ge in Hj. apply gt_true.
    change 3 with (inject_Z 3). rewrite <- Zlt_Qlt. lia.
Qed.

(** X15: the row of turn [j] (counted from 0) shows the metrics of the
    session at depth [j + 1] with the dive time taken from the clock
    reading of that turn; the [depth += 1] at the end of a turn never
    reaches a printed value.  The safe-stop time is 0 in the first three
    rows and (j + 1 - 3) / 9 afterwards. *)
Theorem run_records_row (n : Z) (clock : nat -> Q) (j : nat) :
  (j < Z.to_nat n)%nat ->
  exists (dc : DiveComputer) (rows : list Row) (row : Row),
    run_records n clock = Ok (dc, rows)
    /\ nth_error rows j = Some row
    /\ row_of_state
         (turn_state 0.32 (clock 0%nat) (Z.of_nat j) (clock (S j))) row
    /\ row_depth row = inject_Z (Z.of_nat j + 1)
    /\ row_dive_time row = (clock (S j) - clock 0%nat) / 60
    /\ row_po2 row = 0.32 * (1 + inject_Z (Z.of_nat j + 1) / 10)
    /\ row_safe_stop row
       = if (j <? 3)%nat then 0 else (inject_Z (Z.of_nat j + 1) - 3) / 9.
Proof.
  intros Hj. rewrite run_records_loop.
  destruct (record_loop_spec clock 0.32 (clock 0%nat) (Z.to_nat n) 0 1
              (start_dive (init 0.32) (clock 0%nat)) eq_refl eq_refl)
    as (dc & rows & Hloop & _ & Hrows & _).
  destruct (Hrows j Hj) as (row & Hnth & Hrow).
  exists dc, rows, row. split; [assumption|]. split; [assumption|].
  change (0 + j)%nat with j in Hrow. change (1 + j)%nat with (S j) in Hrow.
  split; [assumption|].
  destruct Hrow as (Hd & Ht & Hp & _ & _ & Hsafe).
  repeat (split; [assumption|]).
  rewrite safe_stop_at_rate_9 in Hsafe by reflexivity.
  injection Hsafe as <-. cbn [depth turn_state].
  rewrite gt_3_inject_Z. now destruct (j <? 3)%nat.
Qed.

Lemma run_records_row_witness :
  (4 < Z.to_nat record_count)%nat
  /\ exists (dc : DiveComputer) (rows : list Row) (row : Row),
       run_records record_count ticking_clock = Ok (dc, rows)
       /\ nth_error rows 4 = Some row
       /\ row_depth row = 5
       /\ row_safe_stop row = (5 - 3) / 9.
Proof.
  assert (Hj : (4 < Z.to_nat record_count)%nat) by (vm_compute; lia).
  split; [exact Hj|].
  destruct (run_records_row record_count ticking_clock 4 Hj)
    as (dc & rows & row & Hrun & Hnth & _ & Hd & _ & _ & Hs).
  exists dc, rows, row.
  split; [exact Hrun|]. split; [exact Hnth|]. split; [exact Hd | exact Hs].
Defined.

(** X16: in the module as written ([record_count] = 10, oxygen fraction
    0.32) every row has NDL 60 and a PO2 below 1, so its CNS percentage is
    the dive time over the first limit of the table, 570; this holds for
    every clock. *)
Theorem module_rows_shallow (clock : nat -> Q) (j : nat) :
  (j < 10)%nat ->
  exists (dc : DiveComputer) (rows : list Row) (row : Row),
    run_records record_count clock = Ok (dc, rows)
    /\ nth_error rows j = Some row
    /\ row_ndl row = 60%Z
    /\ row_po2 row < 1
    /\ row_cns row = row_dive_time row / 570 * 100.
Proof.
  intros Hj. rewrite run_records_loop.
  destruct (record_loop_spec clock 0.32 (clock 0%nat)
              (Z.to_nat record_count) 0 1
              (start_dive (init 0.32) (clock 0%nat)) eq_refl eq_refl)
    as (dc & rows & Hloop & _ & Hrows & _).
  destruct (Hrows j Hj) as (row & Hnth & Hrow).
  exists dc, rows, row. split; [assumption|]. split; [assumption|].
  change (0 + j)%nat with j in Hrow. change (1 + j)%nat with (S j) in Hrow.
  destruct Hrow as (_ & Ht & Hp & Hn & Hc & _).
  assert (Hpo2 : calculate_PO2
                   (turn_state 0.32 (clock 0%nat) (Z.of_nat j) (clock (S j)))
                 < 1).
  { do 10 (destruct j as [|j]; [reflexivity|]). lia. }
  split; [|split].
  - rewrite Hn. do 10 (destruct j as [|j]; [reflexivity|]). lia.
  - now rewrite Hp.
  - rewrite (calculate_CNS_limit _ 570) in Hc;
      [|now apply cns_limit_time_low | reflexivity].
    injection Hc as <-. now rewrite Ht.
Qed.

Lemma module_rows_shallow_witness :
  (9 < 10)%nat
  /\ exists (dc : DiveComputer) (rows : list Row) (row : Row),
       run_records record_count ticking_clock = Ok (dc, rows)
       /\ nth_error rows 9 = Some row
       /\ row_ndl row = 60%Z
       /\ row_po2 row < 1
       /\ row_cns row = row_dive_time row / 570 * 100.
Proof.
  assert (Hj : (9 < 10)%nat) by lia.
  split; [exact Hj|].
  exact (module_rows_shallow ticking_clock 9 Hj).
Defined.
